(** * FlexOrder: checkout with Strategy, Decorator and Facade

    A shallow embedding of [checkout_monolitico.py] and the properties of its
    compositional core: payment and shipping strategies, the decorator chain
    over an order component, the [Pedido] context and the [CheckoutFacade].

    Numbers are Python [float]s, that is IEEE 754 binary64 with rounding to
    nearest even; they are embedded as Rocq's primitive floats, which are the
    same format with the same rounding.  Text is a [string] of bytes (the
    accented letters of the messages are their UTF-8 bytes).  The only effect
    of the program is [print]: every method is embedded in a writer monad
    that collects the printed lines in order. *)

From Stdlib Require Import ZArith List String Ascii Bool Lia.
From Stdlib Require Import Floats DecimalString.
Import ListNotations.

(* Decimal literals such as 0.05 denote, as in Python, the nearest binary64. *)
Set Warnings "-inexact-float".

(** ** The console: a writer monad over the printed lines *)

Module Console.

Definition t (A : Type) : Type := (A * list string)%type.

Definition ret {A : Type} (a : A) : t A := (a, []).

Definition bind {A B : Type} (m : t A) (k : A -> t B) : t B :=
  let (a, o1) := m in
  let (b, o2) := k a in
  (b, o1 ++ o2).

(** [print(s)]: one call, one line. *)
Definition print (s : string) : t unit := (tt, [s]).

Definition result {A : Type} (m : t A) : A := fst m.
Definition output {A : Type} (m : t A) : list string := snd m.

End Console.

Notation "x <- m ;; k" := (Console.bind m (fun x => k))
  (at level 61, m at next level, right associativity).
Notation "m ;;; k" := (Console.bind m (fun _ => k))
  (at level 61, right associativity).

Import Console.

(** ** Text of numbers *)

Open Scope string_scope.

(** The line feed of the messages that start with [\n]. *)
Definition nl : string := String (ascii_of_nat 10) EmptyString.

Definition digits (n : Z) : string :=
  NilZero.string_of_uint (N.to_uint (Z.to_N n)).

(** [str(len(itens))] *)
Definition str_len {A : Type} (l : list A) : string :=
  digits (Z.of_nat (List.length l)).

Fixpoint zeros (n : nat) : string :=
  match n with
  | O => ""
  | S k => "0" ++ zeros k
  end.

(** [n / d] rounded to the nearest integer, a tie going to the even one. *)
Definition round_half_even (n d : Z) : Z :=
  let q := (n / d)%Z in
  match (2 * (n mod d) ?= d)%Z with
  | Lt => q
  | Gt => (q + 1)%Z
  | Eq => if Z.even q then q else (q + 1)%Z
  end.

(** The magnitude [m * 2^e] counted in units of [10^-casas], correctly rounded. *)
Definition scaled_units (casas : nat) (m : positive) (e : Z) : Z :=
  let n := (Zpos m * 10 ^ Z.of_nat casas)%Z in
  match e with
  | Zneg p => round_half_even n (2 ^ Zpos p)
  | _ => (n * 2 ^ e)%Z
  end.

Definition fixed_point (casas : nat) (units : Z) : string :=
  let p := (10 ^ Z.of_nat casas)%Z in
  let inteiro := digits (units / p) in
  match casas with
  | O => inteiro
  | _ =>
      let frac := digits (units mod p) in
      inteiro ++ "." ++ zeros (casas - String.length frac) ++ frac
  end.

Definition sinal (s : bool) : string := if s then "-" else "".

(** Python's [f"{x:.Nf}"] for a float [x] and [N = casas]. *)
Definition format_f (casas : nat) (x : float) : string :=
  match Prim2SF x with
  | S754_nan => "nan"
  | S754_infinity s => sinal s ++ "inf"
  | S754_zero s => sinal s ++ fixed_point casas 0
  | S754_finite s m e => sinal s ++ fixed_point casas (scaled_units casas m e)
  end.

Open Scope float_scope.

(** ** Strategy: payment *)

(** The concrete subclasses of [EstrategiaPagamento]; [PagamentoCredito]
    carries its [limite]. *)
Inductive EstrategiaPagamento : Type :=
| PagamentoPix
| PagamentoCredito (limite : float)
| PagamentoMana.

(** [PagamentoCredito()] with the default argument of [__init__]. *)
Definition PagamentoCredito_default : EstrategiaPagamento := PagamentoCredito 1000.0.

Definition processar (self : EstrategiaPagamento) (valor : float) : Console.t bool :=
  match self with
  | PagamentoPix =>
      print ("Processando R$" ++ format_f 2 valor ++ " via PIX...") ;;;
      print "   -> Pagamento com PIX APROVADO (QR Code gerado)." ;;;
      ret true
  | PagamentoCredito limite =>
      print ("Processando R$" ++ format_f 2 valor ++ " via Cartão de Crédito...") ;;;
      if valor <? limite then
        print "   -> Pagamento com Credito APROVADO." ;;;
        ret true
      else
        print "   -> Pagamento com Credito REJEITADO (limite excedido)." ;;;
        ret false
  | PagamentoMana =>
      print ("Processando R$" ++ format_f 2 valor ++ " via Transferência de Mana...") ;;;
      print "   -> Pagamento com Mana APROVADO (requer 10 segundos de espera)." ;;;
      ret true
  end.

Definition get_desconto (self : EstrategiaPagamento) : float :=
  match self with
  | PagamentoPix => 0.05
  | PagamentoCredito _ => 0.0
  | PagamentoMana => 0.0
  end.

(** ** Strategy: shipping *)

Inductive EstrategiaFrete : Type :=
| FreteNormal
| FreteExpresso
| FreteTeletransporte.

Definition calcular (self : EstrategiaFrete) (valor_pedido : float) : Console.t float :=
  match self with
  | FreteNormal =>
      let custo := valor_pedido * 0.05 in
      print ("Frete Normal: R$" ++ format_f 2 custo) ;;;
      ret custo
  | FreteExpresso =>
      let custo := valor_pedido * 0.10 + 15.00 in
      print ("Frete Expresso (com taxa): R$" ++ format_f 2 custo) ;;;
      ret custo
  | FreteTeletransporte =>
      let custo := 50.00 in
      print ("Frete Teletransporte: R$" ++ format_f 2 custo) ;;;
      ret custo
  end.

(** ** Decorator: the order component and its wrappers *)

(** An element of [itens]: a dict with the keys ['nome'] and ['valor']. *)
Record Item : Type := { nome : string; valor : float }.

(** The concrete subclasses of [ComponentePedido].  A [PedidoBase] object
    stores [itens] and the [valor_base] computed by its constructor. *)
Inductive ComponentePedido : Type :=
| MkPedidoBase (itens : list Item) (valor_base : float)
| DecoradorPedido (_pedido : ComponentePedido)
| DescontoPedidoGrande (_pedido : ComponentePedido)
| TaxaEmbalagemPresente (_pedido : ComponentePedido) (taxa : float).

(** [sum(item['valor'] for item in itens)]: a left fold that starts at 0.
    Python starts it at the int 0, which every operation of the program
    treats as the float 0.0. *)
Definition soma_valores (itens : list Item) : float :=
  fold_left (fun acc item => acc + valor item) itens 0.

(** [PedidoBase(itens)] *)
Definition PedidoBase (itens : list Item) : ComponentePedido :=
  MkPedidoBase itens (soma_valores itens).

(** [TaxaEmbalagemPresente(pedido)] with the default [taxa]. *)
Definition TaxaEmbalagemPresente_default (pedido : ComponentePedido) : ComponentePedido :=
  TaxaEmbalagemPresente pedido 5.00.

Definition linha_desconto_grande : string :=
  "Aplicando 10% de desconto para pedidos grandes.".

Fixpoint calcular_valor (self : ComponentePedido) : Console.t float :=
  match self with
  | MkPedidoBase _ valor_base => ret valor_base
  | DecoradorPedido _pedido => calcular_valor _pedido
  | DescontoPedidoGrande _pedido =>
      valor <- calcular_valor _pedido ;;
      if 500 <? valor then
        print linha_desconto_grande ;;;
        ret (valor * 0.90)
      else ret valor
  | TaxaEmbalagemPresente _pedido taxa =>
      valor <- calcular_valor _pedido ;;
      print ("Adicionando R$" ++ format_f 2 taxa ++ " de Embalagem de Presente.") ;;;
      ret (valor + taxa)
  end.

Definition nota_desconto : string := " + Desconto Pedido Grande (10%)".

Definition nota_embalagem (taxa : float) : string :=
  " + Embalagem Presente (R$" ++ format_f 2 taxa ++ ")".

Fixpoint get_descricao (self : ComponentePedido) : Console.t string :=
  match self with
  | MkPedidoBase itens _ => ret ("Pedido com " ++ str_len itens ++ " itens")
  | DecoradorPedido _pedido => get_descricao _pedido
  | DescontoPedidoGrande _pedido =>
      valor <- calcular_valor _pedido ;;
      if 500 <? valor then
        d <- get_descricao _pedido ;;
        ret (d ++ nota_desconto)
      else get_descricao _pedido
  | TaxaEmbalagemPresente _pedido taxa =>
      d <- get_descricao _pedido ;;
      ret (d ++ nota_embalagem taxa)
  end.

(** ** The Strategy context: [Pedido] *)

Record Pedido : Type := {
  componente_pedido : ComponentePedido;
  estrategia_pagamento : EstrategiaPagamento;
  estrategia_frete : EstrategiaFrete
}.

Definition calcular_valor_com_desconto_pagamento (self : Pedido) : Console.t float :=
  valor <- calcular_valor (componente_pedido self) ;;
  let desconto := get_desconto (estrategia_pagamento self) in
  if 0 <? desconto then
    print ("Aplicando " ++ format_f 0 (desconto * 100)
             ++ "% de desconto do método de pagamento.") ;;;
    ret (valor * (1 - desconto))
  else ret valor.

Definition calcular_frete (self : Pedido) : Console.t float :=
  valor_com_desconto <- calcular_valor_com_desconto_pagamento self ;;
  calcular (estrategia_frete self) valor_com_desconto.

Definition calcular_valor_final (self : Pedido) : Console.t float :=
  valor_com_desconto <- calcular_valor_com_desconto_pagamento self ;;
  custo_frete <- calcular_frete self ;;
  ret (valor_com_desconto + custo_frete).

Definition processar_pagamento (self : Pedido) : Console.t bool :=
  valor_final <- calcular_valor_final self ;;
  processar (estrategia_pagamento self) valor_final.

(** [Pedido.get_descricao] *)
Definition Pedido_get_descricao (self : Pedido) : Console.t string :=
  get_descricao (componente_pedido self).

(** ** Facade: the subsystems and the checkout *)

(** The two subsystems have no attribute: one object each. *)
Inductive SistemaEstoque : Type := MkSistemaEstoque.
Inductive GeradorNotaFiscal : Type := MkGeradorNotaFiscal.

Definition linha_estoque : string := "Pedido registrado no sistema de estoque.".
Definition linha_nota : string := "Emitindo nota fiscal...".

Definition registrar_pedido (self : SistemaEstoque) (pedido : Pedido) : Console.t unit :=
  print linha_estoque ;;;
  d <- Pedido_get_descricao pedido ;;
  print ("   Descrição: " ++ d).

Definition emitir_nota (self : GeradorNotaFiscal) (pedido : Pedido) (valor_final : float)
  : Console.t unit :=
  print linha_nota ;;;
  print ("   Valor Total: R$" ++ format_f 2 valor_final).

Record CheckoutFacade : Type := {
  sistema_estoque : SistemaEstoque;
  gerador_nota : GeradorNotaFiscal
}.

(** [CheckoutFacade()] *)
Definition CheckoutFacade_init : CheckoutFacade :=
  {| sistema_estoque := MkSistemaEstoque; gerador_nota := MkGeradorNotaFiscal |}.

Definition linha_sucesso : string := nl ++ "SUCESSO: Transação aprovada!".
Definition linha_falha : string := nl ++ "FALHA: Transação abortada.".

Definition concluir_transacao (self : CheckoutFacade) (pedido : Pedido) : Console.t bool :=
  print "=========================================" ;;;
  print "INICIANDO CHECKOUT COM DESIGN PATTERNS..." ;;;
  d <- Pedido_get_descricao pedido ;;
  print (nl ++ "Descrição: " ++ d) ;;;
  valor_final <- calcular_valor_final pedido ;;
  print (nl ++ "Valor a Pagar: R$" ++ format_f 2 valor_final) ;;;
  aprovado <- processar_pagamento pedido ;;
  if aprovado then
    print linha_sucesso ;;;
    registrar_pedido (sistema_estoque self) pedido ;;;
    emitir_nota (gerador_nota self) pedido valor_final ;;;
    ret true
  else
    print linha_falha ;;;
    ret false.

(** ** The demonstration orders of [__main__] *)

Definition pedido1 : Pedido :=
  {| componente_pedido :=
       PedidoBase [ {| nome := "Capa da Invisibilidade"; valor := 150.0 |};
                    {| nome := "Poção de Voo"; valor := 80.0 |} ];
     estrategia_pagamento := PagamentoPix;
     estrategia_frete := FreteNormal |}.

Definition pedido_base2 : ComponentePedido :=
  PedidoBase [ {| nome := "Cristal Mágico"; valor := 600.0 |} ].

Definition pedido_decorado2 : ComponentePedido :=
  TaxaEmbalagemPresente_default (DescontoPedidoGrande pedido_base2).

Definition pedido2 : Pedido :=
  {| componente_pedido := pedido_decorado2;
     estrategia_pagamento := PagamentoCredito_default;
     estrategia_frete := FreteExpresso |}.

Definition pedido3 : Pedido :=
  {| componente_pedido :=
       TaxaEmbalagemPresente_default
         (PedidoBase [ {| nome := "Varinha Élfica"; valor := 300.0 |};
                       {| nome := "Pergaminho Antigo"; valor := 120.0 |} ]);
     estrategia_pagamento := PagamentoMana;
     estrategia_frete := FreteTeletransporte |}.

(** A line is a subsystem's when it is the first line that
    [registrar_pedido] or [emitir_nota] prints. *)
Definition linha_de_subsistema (s : string) : bool :=
  String.eqb s linha_estoque || String.eqb s linha_nota.

(** No line of [l] is a subsystem's. *)
Definition quieto (l : list string) : Prop :=
  existsb linha_de_subsistema l = false.

(** How many times each subsystem was called, read off the printed lines. *)
Definition chamadas_estoque (saida : list string) : nat :=
  count_occ string_dec saida linha_estoque.

Definition chamadas_nota (saida : list string) : nat :=
  count_occ string_dec saida linha_nota.

(** The second demonstration order on a card whose limit, 500.0, is below
    its final value. *)
Definition pedido_recusado : Pedido :=
  {| componente_pedido := pedido_decorado2;
     estrategia_pagamento := PagamentoCredito 500.0;
     estrategia_frete := FreteExpresso |}.

(** The empty base order, [PedidoBase([])]. *)
Definition pedido_vazio : ComponentePedido := PedidoBase [].

(** A base order of one item, of the given value. *)
Definition base_de (v : float) : ComponentePedido :=
  PedidoBase [ {| nome := "item"; valor := v |} ].

(** The chain without its [DecoradorPedido] layers. *)
Fixpoint sem_decorador (c : ComponentePedido) : ComponentePedido :=
  match c with
  | MkPedidoBase itens valor_base => MkPedidoBase itens valor_base
  | DecoradorPedido p => sem_decorador p
  | DescontoPedidoGrande p => DescontoPedidoGrande (sem_decorador p)
  | TaxaEmbalagemPresente p taxa => TaxaEmbalagemPresente (sem_decorador p) taxa
  end.

(** The [itens] of the base order at the root of a chain. *)
Fixpoint itens_da_raiz (c : ComponentePedido) : list Item :=
  match c with
  | MkPedidoBase itens _ => itens
  | DecoradorPedido p => itens_da_raiz p
  | DescontoPedidoGrande p => itens_da_raiz p
  | TaxaEmbalagemPresente p _ => itens_da_raiz p
  end.

(** Whether a chain has a [DescontoPedidoGrande] layer. *)
Fixpoint tem_desconto (c : ComponentePedido) : bool :=
  match c with
  | MkPedidoBase _ _ => false
  | DecoradorPedido p => tem_desconto p
  | DescontoPedidoGrande _ => true
  | TaxaEmbalagemPresente p _ => tem_desconto p
  end.

(** The [valor_base] of the base order at the root of a chain. *)
Fixpoint valor_da_raiz (c : ComponentePedido) : float :=
  match c with
  | MkPedidoBase _ valor_base => valor_base
  | DecoradorPedido p => valor_da_raiz p
  | DescontoPedidoGrande p => valor_da_raiz p
  | TaxaEmbalagemPresente p _ => valor_da_raiz p
  end.

(** An order one of whose items has a value that is not a number. *)
Definition pedido_nan : Pedido :=
  {| componente_pedido :=
       TaxaEmbalagemPresente_default
         (DescontoPedidoGrande
            (PedidoBase [ {| nome := "a"; valor := 600.0 |};
                          {| nome := "b"; valor := nan |};
                          {| nome := "c"; valor := 80.0 |} ]));
     estrategia_pagamento := PagamentoCredito_default;
     estrategia_frete := FreteExpresso |}.

(** The line that [calcular_valor_com_desconto_pagamento] prints for PIX. *)
Definition linha_desconto_pix : string :=
  "Aplicando 5% de desconto do método de pagamento.".

(** * Properties *)

(** ** The console monad *)

Section ConsoleFacts.
Context {A B : Type}.

Lemma result_bind (m : Console.t A) (k : A -> Console.t B) :
  result (Console.bind m k) = result (k (result m)).
Proof.
  destruct m as [a o]; unfold Console.bind, result; simpl.
  destruct (k a); reflexivity.
Qed.

Lemma output_bind (m : Console.t A) (k : A -> Console.t B) :
  output (Console.bind m k) = (output m ++ output (k (result m)))%list.
Proof.
  destruct m as [a o]; unfold Console.bind, output, result; simpl.
  destruct (k a); reflexivity.
Qed.

Lemma result_ret (a : A) : result (ret a) = a.
Proof. reflexivity. Qed.

Lemma output_ret (a : A) : output (ret a) = [].
Proof. reflexivity. Qed.

Lemma result_if (c : bool) (m1 m2 : Console.t A) :
  result (if c then m1 else m2) = if c then result m1 else result m2.
Proof. destruct c; reflexivity. Qed.

End ConsoleFacts.

Lemma output_print (s : string) : output (print s) = [s].
Proof. reflexivity. Qed.

Create Rewrite HintDb console.
#[local] Hint Rewrite @result_bind @result_ret @result_if : console.
#[local] Hint Rewrite @output_bind @output_ret output_print : console.

Ltac console := autorewrite with console; cbn beta iota.

(** ** Text *)

Lemma length_append (s1 s2 : string) :
  String.length (s1 ++ s2) = (String.length s1 + String.length s2)%nat.
Proof. induction s1 as [| c s1 IH]; simpl; [reflexivity | now rewrite IH]. Qed.

(** Appending the discount note always changes a description. *)
Lemma append_nota_desconto_neq (d : string) : (d ++ nota_desconto)%string <> d.
Proof.
  intro H. apply (f_equal String.length) in H.
  rewrite length_append in H. simpl in H. lia.
Qed.

(** ** The decorators, layer by layer *)

Lemma calcular_valor_DescontoPedidoGrande (x : ComponentePedido) :
  result (calcular_valor (DescontoPedidoGrande x)) =
    let v := result (calcular_valor x) in
    if 500 <? v then v * 0.90 else v.
Proof.
  simpl. console. destruct (500 <? result (calcular_valor x)); reflexivity.
Qed.

Lemma get_descricao_DescontoPedidoGrande (x : ComponentePedido) :
  result (get_descricao (DescontoPedidoGrande x)) =
    if 500 <? result (calcular_valor x)
    then (result (get_descricao x) ++ nota_desconto)%string
    else result (get_descricao x).
Proof.
  simpl. console. destruct (500 <? result (calcular_valor x)); console; reflexivity.
Qed.

Lemma calcular_valor_TaxaEmbalagemPresente (x : ComponentePedido) (taxa : float) :
  result (calcular_valor (TaxaEmbalagemPresente x taxa)) = result (calcular_valor x) + taxa.
Proof. simpl. console. reflexivity. Qed.

Lemma get_descricao_TaxaEmbalagemPresente (x : ComponentePedido) (taxa : float) :
  result (get_descricao (TaxaEmbalagemPresente x taxa)) =
    (result (get_descricao x) ++ nota_embalagem taxa)%string.
Proof. simpl. console. reflexivity. Qed.

(** ** The [Pedido] context *)

Lemma result_calcular_frete (p : Pedido) :
  result (calcular_frete p) =
    result (calcular (estrategia_frete p)
              (result (calcular_valor_com_desconto_pagamento p))).
Proof. unfold calcular_frete. console. reflexivity. Qed.

Lemma result_calcular_valor_final (p : Pedido) :
  result (calcular_valor_final p) =
    result (calcular_valor_com_desconto_pagamento p) + result (calcular_frete p).
Proof. unfold calcular_valor_final. console. reflexivity. Qed.

Lemma result_processar_pagamento (p : Pedido) :
  result (processar_pagamento p) =
    result (processar (estrategia_pagamento p) (result (calcular_valor_final p))).
Proof. unfold processar_pagamento. console. reflexivity. Qed.

(** Two floats with different specifications are different floats. *)
Ltac floats_differ :=
  let H := fresh in
  intro H; apply (f_equal Prim2SF) in H; vm_compute in H; discriminate H.

(** C1. For every [Pedido], the final value is the payment-discounted value
    plus the shipping cost, and the shipping cost is what the bound shipping
    strategy computes from the payment-discounted value.  That this is not
    the cost computed from the undiscounted component value shows on the
    first demonstration order (PIX, normal shipping): 10.925000000000001
    from the discounted 218.5, against 11.5 from the undiscounted 230. *)
Theorem valor_final_desconto_mais_frete (p : Pedido) :
  let valor_com_desconto := result (calcular_valor_com_desconto_pagamento p) in
  result (calcular_valor_final p) = valor_com_desconto + result (calcular_frete p)
  /\ result (calcular_frete p) = result (calcular (estrategia_frete p) valor_com_desconto)
  /\ result (calcular_frete pedido1)
       <> result (calcular (estrategia_frete pedido1)
                    (result (calcular_valor (componente_pedido pedido1)))).
Proof.
  cbv zeta. split; [apply result_calcular_valor_final |].
  split; [apply result_calcular_frete |].
  floats_differ.
Qed.

(** C2. For every inner component [x] of value [v], the value of
    [DescontoPedidoGrande x] is [v * 0.90] when [v > 500] and [v] unchanged
    otherwise; an inner value of exactly 500 is returned undiscounted. *)
Theorem desconto_pedido_grande_valor (x : ComponentePedido) :
  let v := result (calcular_valor x) in
  ((500 <? v) = true -> result (calcular_valor (DescontoPedidoGrande x)) = v * 0.90)
  /\ ((500 <? v) = false -> result (calcular_valor (DescontoPedidoGrande x)) = v)
  /\ (v = 500 -> result (calcular_valor (DescontoPedidoGrande x)) = 500).
Proof.
  cbv zeta. rewrite calcular_valor_DescontoPedidoGrande. cbv zeta.
  split; [| split].
  - intros ->. reflexivity.
  - intros ->. reflexivity.
  - intros ->. reflexivity.
Qed.

(** The three cases of C2 on base orders of value 600, 400 and exactly 500. *)
Lemma desconto_pedido_grande_valor_witness :
  result (calcular_valor (DescontoPedidoGrande (base_de 600))) = 540
  /\ result (calcular_valor (DescontoPedidoGrande (base_de 400))) = 400
  /\ result (calcular_valor (DescontoPedidoGrande (base_de 500))) = 500.
Proof.
  split; [| split].
  - exact (proj1 (desconto_pedido_grande_valor (base_de 600)) eq_refl).
  - exact (proj1 (proj2 (desconto_pedido_grande_valor (base_de 400))) eq_refl).
  - exact (proj2 (proj2 (desconto_pedido_grande_valor (base_de 500))) eq_refl).
Defined.

(** C6. For every inner component [x], the description of
    [DescontoPedidoGrande x] is the description of [x] followed by the
    discount note when the value of [x] itself, computed again by
    [get_descricao], strictly exceeds 500, and the description of [x]
    unchanged otherwise; so the note is appended if and only if that raw
    value exceeds 500.  The test is on the raw value, not on the discounted
    one: an inner value of 520 gets the note although its discounted value,
    468, is below the threshold. *)
Theorem desconto_pedido_grande_descricao (x : ComponentePedido) :
  let v := result (calcular_valor x) in
  let d := result (get_descricao x) in
  let d' := result (get_descricao (DescontoPedidoGrande x)) in
  d' = (if 500 <? v then (d ++ nota_desconto)%string else d)
  /\ (d' = (d ++ nota_desconto)%string <-> (500 <? v) = true)
  /\ (d' = d <-> (500 <? v) = false)
  /\ (let x520 := base_de 520 in
      (result (calcular_valor (DescontoPedidoGrande x520)) <? 500) = true
      /\ result (get_descricao (DescontoPedidoGrande x520)) =
           (result (get_descricao x520) ++ nota_desconto)%string).
Proof.
  cbv zeta. rewrite get_descricao_DescontoPedidoGrande.
  destruct (500 <? result (calcular_valor x)) eqn:E.
  - repeat split; try reflexivity; intro H.
    + exfalso. exact (append_nota_desconto_neq _ H).
    + discriminate H.
  - repeat split; try reflexivity; intro H.
    + exfalso. exact (append_nota_desconto_neq _ (eq_sym H)).
    + discriminate H.
Qed.

(** C7. For every inner component [x] and every fee, the value of
    [TaxaEmbalagemPresente x taxa] is the value of [x] plus the fee, with no
    threshold, and its description is the description of [x] followed by
    the fee note, whatever the inner value: also on an empty base order, of
    value zero. *)
Theorem taxa_embalagem_presente_valor_descricao (x : ComponentePedido) (taxa : float) :
  result (calcular_valor (TaxaEmbalagemPresente x taxa)) = result (calcular_valor x) + taxa
  /\ result (get_descricao (TaxaEmbalagemPresente x taxa)) =
       (result (get_descricao x) ++ nota_embalagem taxa)%string
  /\ (result (calcular_valor (PedidoBase [])) = 0
      /\ result (get_descricao (TaxaEmbalagemPresente_default (PedidoBase []))) =
           "Pedido com 0 itens + Embalagem Presente (R$5.00)"%string).
Proof.
  split; [apply calcular_valor_TaxaEmbalagemPresente |].
  split; [apply get_descricao_TaxaEmbalagemPresente |].
  split; reflexivity.
Qed.

(** C9. Wrapping a component [x] in the base decorator [DecoradorPedido]
    changes nothing: the wrapper computes the value of [x] and the
    description of [x], and prints what [x] prints. *)
Theorem decorador_pedido_identidade (x : ComponentePedido) :
  calcular_valor (DecoradorPedido x) = calcular_valor x
  /\ get_descricao (DecoradorPedido x) = get_descricao x.
Proof. split; reflexivity. Qed.

(** C8. The second demonstration order: one item of 600.0 under
    [DescontoPedidoGrande] then [TaxaEmbalagemPresente] (fee 5.0), credit
    payment with the default limit 1000.0, express shipping.  The discount
    layer gives 540.0, the component 545.0, the payment-discounted value
    545.0, the shipping cost 69.5, the final value 614.5; the payment is
    approved, 614.5 being below 1000. *)
Theorem cenario2_valores :
  result (calcular_valor pedido_base2) = 600
  /\ result (calcular_valor (DescontoPedidoGrande pedido_base2)) = 540
  /\ result (calcular_valor (componente_pedido pedido2)) = 545
  /\ result (calcular_valor_com_desconto_pagamento pedido2) = 545
  /\ result (calcular_frete pedido2) = 69.5
  /\ result (calcular_valor_final pedido2) = 614.5
  /\ ((614.5 <? 1000) = true /\ result (processar_pagamento pedido2) = true)
  /\ result (concluir_transacao CheckoutFacade_init pedido2) = true.
Proof. repeat split; vm_compute; reflexivity. Qed.

(** ** Comparison of floats *)

(** No float is below itself (a NaN is below nothing). *)
Lemma ltb_irrefl (x : float) : (x <? x) = false.
Proof.
  rewrite ltb_spec. unfold SFltb.
  destruct (Prim2SF x) as [[] | [] | | [] m e]; try reflexivity; simpl;
    pose proof (Z.compare_refl e) as He;
    pose proof (Pos.compare_cont_refl m Eq) as Hm;
    rewrite He, Hm; reflexivity.
Qed.

(** Python's [x == y] excludes [x < y]. *)
Lemma eqb_true_ltb_false (x y : float) : (x =? y) = true -> (x <? y) = false.
Proof.
  rewrite eqb_spec, ltb_spec. unfold SFeqb, SFltb.
  destruct (SFcompare (Prim2SF x) (Prim2SF y)) as [[ | | ] |]; congruence.
Qed.

Lemma result_processar_credito (limite valor : float) :
  result (processar (PagamentoCredito limite) valor) = (valor <? limite).
Proof. simpl. console. destruct (valor <? limite); reflexivity. Qed.

(** C4. For every amount and every credit limit, [PagamentoCredito]
    approves if and only if the amount is strictly below the limit; an
    amount equal to the limit (the same float, or equal by Python's [==])
    is rejected. *)
Theorem credito_aprova_sse_abaixo_do_limite (limite valor : float) :
  (result (processar (PagamentoCredito limite) valor) = true <-> (valor <? limite) = true)
  /\ (result (processar (PagamentoCredito limite) valor) = false <-> (valor <? limite) = false)
  /\ result (processar (PagamentoCredito limite) limite) = false
  /\ ((valor =? limite) = true ->
      result (processar (PagamentoCredito limite) valor) = false).
Proof.
  rewrite !result_processar_credito.
  split; [reflexivity |]. split; [reflexivity |].
  split; [apply ltb_irrefl | apply eqb_true_ltb_false].
Qed.

(** C4 on the default limit: 999.99 is approved, 1000.0 and 1000.01 are not. *)
Lemma credito_aprova_sse_abaixo_do_limite_witness :
  result (processar PagamentoCredito_default 999.99) = true
  /\ result (processar PagamentoCredito_default 1000.0) = false
  /\ result (processar PagamentoCredito_default 1000.01) = false.
Proof.
  split; [| split].
  - apply (proj2 (proj1 (credito_aprova_sse_abaixo_do_limite 1000.0 999.99))).
    reflexivity.
  - apply (proj2 (proj2 (proj2 (credito_aprova_sse_abaixo_do_limite 1000.0 1000.0)))).
    reflexivity.
  - apply (proj2 (proj1 (proj2 (credito_aprova_sse_abaixo_do_limite 1000.0 1000.01)))).
    reflexivity.
Defined.

(** ** What the discount layer prints and returns *)

Lemma calcular_valor_DescontoPedidoGrande_full (x : ComponentePedido) :
  calcular_valor (DescontoPedidoGrande x) =
    let v := result (calcular_valor x) in
    if 500 <? v
    then (v * 0.90, (output (calcular_valor x) ++ [linha_desconto_grande])%list)
    else (v, output (calcular_valor x)).
Proof.
  simpl. destruct (calcular_valor x) as [v o]. unfold Console.bind, result, output; simpl.
  destruct (500 <? v); simpl; [reflexivity | now rewrite app_nil_r].
Qed.

Lemma app_singleton_neq {A : Type} (l : list A) (a : A) : (l ++ [a])%list <> l.
Proof.
  intro H. apply (f_equal (@List.length A)) in H.
  rewrite length_app in H. simpl in H. lia.
Qed.

(** C10, as the code has it.  For every inner component [x] of value [v]:
    the discount note is appended to the description if and only if
    [v > 500], which is if and only if [calcular_valor] applies the
    discount, that is prints its discount line and returns [v * 0.90];
    then the returned value is the reduced one.  Comparing returned values
    alone, the note is appended if and only if the value returned is
    [v * 0.90] whenever [v * 0.90] differs from [v]. *)
Theorem nota_sse_desconto_aplicado (x : ComponentePedido) :
  let v := result (calcular_valor x) in
  let d' := result (get_descricao (DescontoPedidoGrande x)) in
  let com_nota := d' = (result (get_descricao x) ++ nota_desconto)%string in
  (com_nota <-> (500 <? v) = true)
  /\ (com_nota <->
      calcular_valor (DescontoPedidoGrande x) =
        (v * 0.90, (output (calcular_valor x) ++ [linha_desconto_grande])%list))
  /\ (com_nota -> result (calcular_valor (DescontoPedidoGrande x)) = v * 0.90)
  /\ (v * 0.90 <> v ->
      (com_nota <-> result (calcular_valor (DescontoPedidoGrande x)) = v * 0.90)).
Proof.
  cbv zeta.
  rewrite get_descricao_DescontoPedidoGrande, calcular_valor_DescontoPedidoGrande_full.
  cbv zeta.
  destruct (500 <? result (calcular_valor x)) eqn:E;
    change (result (?a, ?b)) with a.
  - split; [tauto |]. split; [tauto |]. split; [tauto |]. intros _. tauto.
  - assert (N : (result (get_descricao x)) <>
                (result (get_descricao x) ++ nota_desconto)%string)
      by (intro H; exact (append_nota_desconto_neq _ (eq_sym H))).
    split; [split; [tauto | discriminate] |].
    split.
    { split; [tauto |]. intro H. exfalso.
      injection H as _ H. exact (app_singleton_neq _ _ (eq_sym H)). }
    split; [tauto |].
    intros Hv. split; [tauto |]. intro H. exfalso. exact (Hv (eq_sym H)).
Qed.

(** On a base order of 600 the reduced value 540 differs from 600: the note
    is there, and the value returned is the reduced one. *)
Lemma nota_sse_desconto_aplicado_witness :
  result (get_descricao (DescontoPedidoGrande (base_de 600))) =
    (result (get_descricao (base_de 600)) ++ nota_desconto)%string
  <-> result (calcular_valor (DescontoPedidoGrande (base_de 600))) =
        result (calcular_valor (base_de 600)) * 0.90.
Proof.
  apply (proj2 (proj2 (proj2 (nota_sse_desconto_aplicado (base_de 600))))).
  floats_differ.
Defined.

(** C10 as stated fails on the empty base order: its value is 0, the
    discount layer returns that 0, which is also 0 times 0.90, and yet no
    note is appended, the description being the inner one. *)
Lemma nota_sse_valor_reduzido_counterexample :
  result (calcular_valor pedido_vazio) = 0
  /\ result (calcular_valor (DescontoPedidoGrande pedido_vazio)) =
       result (calcular_valor pedido_vazio) * 0.90
  /\ result (get_descricao (DescontoPedidoGrande pedido_vazio)) =
       result (get_descricao pedido_vazio)
  /\ ~ (result (get_descricao (DescontoPedidoGrande pedido_vazio)) =
          (result (get_descricao pedido_vazio) ++ nota_desconto)%string
        <-> result (calcular_valor (DescontoPedidoGrande pedido_vazio)) =
              result (calcular_valor pedido_vazio) * 0.90).
Proof.
  split; [reflexivity |]. split; [reflexivity |]. split; [reflexivity |].
  intros [_ H]. specialize (H eq_refl). vm_compute in H. discriminate H.
Qed.

(** ** The subsystems are called by the facade only *)

Lemma quieto_nil : quieto [].
Proof. reflexivity. Qed.

Lemma quieto_app (l1 l2 : list string) : quieto l1 -> quieto l2 -> quieto (l1 ++ l2).
Proof. unfold quieto. intros H1 H2. now rewrite existsb_app, H1, H2. Qed.

Lemma quieto_calcular_valor (c : ComponentePedido) : quieto (output (calcular_valor c)).
Proof.
  induction c as [itens vb | c IH | c IH | c IH taxa]; simpl.
  - reflexivity.
  - exact IH.
  - autorewrite with console. apply quieto_app; [exact IH |].
    destruct (500 <? result (calcular_valor c)); reflexivity.
  - autorewrite with console. apply quieto_app; [exact IH |]. reflexivity.
Qed.

Lemma quieto_get_descricao (c : ComponentePedido) : quieto (output (get_descricao c)).
Proof.
  induction c as [itens vb | c IH | c IH | c IH taxa]; simpl.
  - reflexivity.
  - exact IH.
  - autorewrite with console. apply quieto_app; [apply quieto_calcular_valor |].
    destruct (500 <? result (calcular_valor c)); autorewrite with console.
    + apply quieto_app; [exact IH | reflexivity].
    + exact IH.
  - autorewrite with console. apply quieto_app; [exact IH | reflexivity].
Qed.

Lemma quieto_cvcd (p : Pedido) : quieto (output (calcular_valor_com_desconto_pagamento p)).
Proof.
  unfold calcular_valor_com_desconto_pagamento. autorewrite with console.
  apply quieto_app; [apply quieto_calcular_valor |].
  destruct (0 <? get_desconto (estrategia_pagamento p)); reflexivity.
Qed.

Lemma quieto_calcular (f : EstrategiaFrete) (v : float) : quieto (output (calcular f v)).
Proof. destruct f; reflexivity. Qed.

Lemma quieto_processar (e : EstrategiaPagamento) (v : float) : quieto (output (processar e v)).
Proof.
  destruct e as [| limite |]; try reflexivity.
  simpl. autorewrite with console. destruct (v <? limite); reflexivity.
Qed.

Lemma quieto_calcular_frete (p : Pedido) : quieto (output (calcular_frete p)).
Proof.
  unfold calcular_frete. autorewrite with console.
  apply quieto_app; [apply quieto_cvcd | apply quieto_calcular].
Qed.

Lemma quieto_calcular_valor_final (p : Pedido) : quieto (output (calcular_valor_final p)).
Proof.
  unfold calcular_valor_final. autorewrite with console.
  apply quieto_app; [apply quieto_cvcd |].
  apply quieto_app; [apply quieto_calcular_frete | reflexivity].
Qed.

Lemma quieto_processar_pagamento (p : Pedido) : quieto (output (processar_pagamento p)).
Proof.
  unfold processar_pagamento. autorewrite with console.
  apply quieto_app; [apply quieto_calcular_valor_final | apply quieto_processar].
Qed.

Lemma output_concluir_transacao (f : CheckoutFacade) (p : Pedido) :
  exists antes,
    quieto antes /\
    output (concluir_transacao f p) =
      (antes ++
       if result (processar_pagamento p)
       then linha_sucesso ::
              output (registrar_pedido (sistema_estoque f) p) ++
              output (emitir_nota (gerador_nota f) p (result (calcular_valor_final p)))
       else [linha_falha])%list.
Proof.
  unfold concluir_transacao. autorewrite with console.
  match goal with |- context [output (if ?b then ?m1 else ?m2)] =>
    replace (output (if b then m1 else m2))
      with (if b
            then linha_sucesso ::
                   output (registrar_pedido (sistema_estoque f) p) ++
                   output (emitir_nota (gerador_nota f) p (result (calcular_valor_final p)))
            else [linha_falha])%list
      by (destruct b; autorewrite with console; simpl; now rewrite ?app_nil_r)
  end.
  eexists. split; cycle 1.
  - rewrite !app_assoc. reflexivity.
  - repeat apply quieto_app; try reflexivity.
    + apply quieto_get_descricao.
    + apply quieto_calcular_valor_final.
    + apply quieto_processar_pagamento.
Qed.

Lemma quieto_chamadas (l : list string) :
  quieto l -> chamadas_estoque l = 0%nat /\ chamadas_nota l = 0%nat.
Proof.
  unfold quieto, chamadas_estoque, chamadas_nota.
  induction l as [| s l IH]; simpl; [auto |].
  intros H. apply orb_false_iff in H as [Hs Hl].
  unfold linha_de_subsistema in Hs. apply orb_false_iff in Hs as [H1 H2].
  apply String.eqb_neq in H1, H2.
  destruct (IH Hl) as [IH1 IH2].
  destruct (string_dec s linha_estoque); [contradiction |].
  destruct (string_dec s linha_nota); [contradiction |]. auto.
Qed.

Lemma chamadas_registrar_pedido (e : SistemaEstoque) (p : Pedido) :
  chamadas_estoque (output (registrar_pedido e p)) = 1%nat
  /\ chamadas_nota (output (registrar_pedido e p)) = 0%nat.
Proof.
  unfold registrar_pedido. autorewrite with console.
  unfold chamadas_estoque, chamadas_nota. rewrite !count_occ_app.
  destruct (quieto_chamadas _ (quieto_get_descricao (componente_pedido p))) as [H1 H2].
  unfold chamadas_estoque, chamadas_nota, Pedido_get_descricao in *.
  rewrite H1, H2. split; reflexivity.
Qed.

Lemma chamadas_emitir_nota (g : GeradorNotaFiscal) (p : Pedido) (v : float) :
  chamadas_estoque (output (emitir_nota g p v)) = 0%nat
  /\ chamadas_nota (output (emitir_nota g p v)) = 1%nat.
Proof.
  unfold emitir_nota. autorewrite with console.
  unfold chamadas_estoque, chamadas_nota. simpl.
  repeat match goal with
         | |- context [string_dec ?a ?b] =>
             destruct (string_dec a b); try discriminate; try congruence
         end.
  split; reflexivity.
Qed.

Lemma result_concluir_transacao (f : CheckoutFacade) (p : Pedido) :
  result (concluir_transacao f p) = result (processar_pagamento p).
Proof.
  unfold concluir_transacao. autorewrite with console.
  destruct (result (processar_pagamento p)); autorewrite with console; reflexivity.
Qed.

(** C5. For every [Pedido], [concluir_transacao] returns what the bound
    payment strategy's [processar] returns on the final value.  When that
    is [True], each subsystem is called exactly once: what is printed ends
    with the lines of [registrar_pedido] on the order followed by the lines
    of [emitir_nota] on the order and the final value computed before the
    payment, and nothing printed before is a subsystem's.  When it is
    [False], no subsystem is called. *)
Theorem concluir_transacao_notifica_sse_aprovado (f : CheckoutFacade) (p : Pedido) :
  let valor_final := result (calcular_valor_final p) in
  let aprovado := result (processar (estrategia_pagamento p) valor_final) in
  let saida := output (concluir_transacao f p) in
  result (concluir_transacao f p) = aprovado
  /\ chamadas_estoque saida = (if aprovado then 1 else 0)%nat
  /\ chamadas_nota saida = (if aprovado then 1 else 0)%nat
  /\ (aprovado = true ->
      exists antes,
        chamadas_estoque antes = 0%nat /\ chamadas_nota antes = 0%nat /\
        saida = (antes ++ output (registrar_pedido (sistema_estoque f) p)
                       ++ output (emitir_nota (gerador_nota f) p valor_final))%list)
  /\ (aprovado = false -> quieto saida).
Proof.
  cbv zeta. rewrite result_concluir_transacao, <- result_processar_pagamento.
  destruct (output_concluir_transacao f p) as (antes & Hq & ->).
  destruct (quieto_chamadas _ Hq) as [He Hn].
  destruct (chamadas_registrar_pedido (sistema_estoque f) p) as [Re Rn].
  destruct (chamadas_emitir_nota (gerador_nota f) p (result (calcular_valor_final p)))
    as [Ee En].
  assert (Hs : quieto [linha_sucesso]) by reflexivity.
  destruct (quieto_chamadas _ Hs) as [Se Sn].
  split; [reflexivity |].
  destruct (result (processar_pagamento p)).
  - change (linha_sucesso :: ?l)%list with ([linha_sucesso] ++ l)%list.
    unfold chamadas_estoque, chamadas_nota in *. rewrite !count_occ_app.
    rewrite He, Hn, Re, Rn, Ee, En, Se, Sn.
    split; [reflexivity |]. split; [reflexivity |]. split; [| discriminate].
    intros _. exists (antes ++ [linha_sucesso])%list.
    rewrite !count_occ_app, He, Hn, Se, Sn, <- !app_assoc.
    repeat split; reflexivity.
  - assert (Hf : quieto [linha_falha]) by reflexivity.
    destruct (quieto_chamadas _ Hf) as [Fe Fn].
    unfold chamadas_estoque, chamadas_nota in *. rewrite !count_occ_app.
    rewrite He, Hn, Fe, Fn.
    split; [reflexivity |]. split; [reflexivity |]. split; [discriminate |].
    intros _. apply quieto_app; assumption.
Qed.

(** C5 on the second demonstration order, approved with the default limit,
    and on the same order with a limit of 500.0, rejected. *)
Lemma concluir_transacao_notifica_sse_aprovado_witness :
  (result (concluir_transacao CheckoutFacade_init pedido2) = true
   /\ chamadas_estoque (output (concluir_transacao CheckoutFacade_init pedido2)) = 1%nat
   /\ chamadas_nota (output (concluir_transacao CheckoutFacade_init pedido2)) = 1%nat)
  /\ (result (concluir_transacao CheckoutFacade_init pedido_recusado) = false
      /\ chamadas_estoque (output (concluir_transacao CheckoutFacade_init pedido_recusado)) = 0%nat
      /\ chamadas_nota (output (concluir_transacao CheckoutFacade_init pedido_recusado)) = 0%nat).
Proof.
  pose proof (concluir_transacao_notifica_sse_aprovado CheckoutFacade_init pedido2)
    as (A1 & A2 & A3 & _).
  pose proof (concluir_transacao_notifica_sse_aprovado CheckoutFacade_init pedido_recusado)
    as (B1 & B2 & B3 & _).
  split; (split; [| split]).
  - exact A1.
  - exact A2.
  - exact A3.
  - exact B1.
  - exact B2.
  - exact B3.
Defined.

(** ** Rounding in binary64

    What the specification of the primitive floats ([SpecFloat]) says of
    the rounding of a product, as far as the discount needs it. *)

Section Rounding.
Local Open Scope Z_scope.

(** [digits2_pos p] is the number of bits of [p]. *)
Lemma digits2_pos_bounds (p : positive) :
  2 ^ (Zpos (digits2_pos p) - 1) <= Zpos p < 2 ^ Zpos (digits2_pos p).
Proof.
  induction p as [p IH | p IH |]; simpl digits2_pos.
  - rewrite Pos2Z.inj_succ, Z.pow_succ_r by lia.
    replace (Z.succ (Zpos (digits2_pos p)) - 1) with (Z.succ (Zpos (digits2_pos p) - 1)) by lia.
    rewrite Z.pow_succ_r by lia. lia.
  - rewrite Pos2Z.inj_succ, Z.pow_succ_r by lia.
    replace (Z.succ (Zpos (digits2_pos p)) - 1) with (Z.succ (Zpos (digits2_pos p) - 1)) by lia.
    rewrite Z.pow_succ_r by lia. lia.
  - simpl. lia.
Qed.

Lemma digits2_pos_unique (p : positive) (d : Z) :
  2 ^ (d - 1) <= Zpos p < 2 ^ d -> Zpos (digits2_pos p) = d.
Proof.
  intros [Hl Hu]. pose proof (digits2_pos_bounds p) as [Bl Bu].
  assert (0 < d).
  { destruct (Z_lt_le_dec 0 d) as [|Hd]; [assumption |].
    assert (2 ^ d <= 2 ^ 0) by (apply Z.pow_le_mono_r; lia). simpl in *. lia. }
  assert (d - 1 < Zpos (digits2_pos p)).
  { apply (Z.pow_lt_mono_r_iff 2); lia. }
  assert (Zpos (digits2_pos p) - 1 < d).
  { apply (Z.pow_lt_mono_r_iff 2); lia. }
  lia.
Qed.

Lemma shr_m_shr_1 (mrs : shr_record) :
  0 <= shr_m mrs -> shr_m (shr_1 mrs) = shr_m mrs / 2.
Proof.
  destruct mrs as [m r s]. simpl. intros Hm.
  destruct m as [| [p | p |] |]; simpl shr_m; try lia.
  - reflexivity.
  - apply Z.div_unique with (r := 1); lia.
  - apply Z.div_unique with (r := 0); lia.
  - reflexivity.
Qed.

Lemma shr_m_iter_pos (n : positive) (mrs : shr_record) :
  0 <= shr_m mrs ->
  shr_m (iter_pos shr_1 n mrs) = shr_m mrs / 2 ^ Zpos n.
Proof.
  revert mrs. induction n as [n IH | n IH |]; intros mrs Hm; simpl iter_pos.
  - assert (H1 : 0 <= shr_m (shr_1 mrs)).
    { rewrite shr_m_shr_1 by assumption. apply Z.div_pos; lia. }
    assert (H2 : 0 <= shr_m (iter_pos shr_1 n (shr_1 mrs))).
    { rewrite IH by assumption. apply Z.div_pos; [assumption | apply Z.pow_pos_nonneg; lia]. }
    rewrite IH, IH, shr_m_shr_1 by assumption.
    rewrite !Z.div_div by (try apply Z.pow_pos_nonneg; lia).
    f_equal. rewrite Pos2Z.inj_xI, <- Z.pow_add_r, <- Z.pow_succ_r by lia. f_equal. lia.
  - assert (H2 : 0 <= shr_m (iter_pos shr_1 n mrs)).
    { rewrite IH by assumption. apply Z.div_pos; [assumption | apply Z.pow_pos_nonneg; lia]. }
    rewrite IH, IH by assumption.
    rewrite !Z.div_div by (try apply Z.pow_pos_nonneg; lia).
    f_equal. rewrite Pos2Z.inj_xO, <- Z.pow_add_r by lia. f_equal. lia.
  - rewrite shr_m_shr_1 by assumption. reflexivity.
Qed.

Lemma fexp_normal (k : Z) : -1021 <= k -> fexp prec emax k = k - 53.
Proof.
  intros Hk. unfold fexp, SpecFloat.emin, prec, emax.
  lia.
Qed.

Lemma round_nearest_even_bounds (m : Z) (l : location) :
  m <= round_nearest_even m l <= m + 1.
Proof.
  unfold round_nearest_even.
  destruct l as [| [ | | ]]; try destruct (Z.even m); 
   change (IntDef.Z.add m 1) with (m + 1); lia.
Qed.

Lemma shr_fexp_shift (P : positive) (E : Z) (n : positive) :
  Zpos (digits2_pos P) = 53 + Zpos n -> -1074 <= E + Zpos n ->
  shr_fexp prec emax (Zpos P) E loc_Exact =
    (iter_pos shr_1 n (Build_shr_record (Zpos P) false false), E + Zpos n).
Proof.
  intros Hd HE. unfold shr_fexp. simpl Zdigits2. simpl shr_record_of_loc.
  change (IntDef.Z.add (Zpos (digits2_pos P)) E) with (Zpos (digits2_pos P) + E).
  rewrite fexp_normal by lia.
  change (IntDef.Z.sub ?a ?b) with (a - b).
  replace (Zpos (digits2_pos P) + E - 53 - E) with (Zpos n) by lia.
  reflexivity.
Qed.

Lemma shr_fexp_noshift (P : positive) (E : Z) :
  Zpos (digits2_pos P) = 53 -> -1074 <= E ->
  shr_fexp prec emax (Zpos P) E loc_Exact = (Build_shr_record (Zpos P) false false, E).
Proof.
  intros Hd HE. unfold shr_fexp. simpl Zdigits2. simpl shr_record_of_loc.
  change (IntDef.Z.add (Zpos (digits2_pos P)) E) with (Zpos (digits2_pos P) + E).
  rewrite fexp_normal by lia.
  change (IntDef.Z.sub ?a ?b) with (a - b).
  replace (Zpos (digits2_pos P) + E - 53 - E) with 0 by lia.
  reflexivity.
Qed.

Lemma div_pow2_bounds (P : positive) (n : positive) :
  Zpos (digits2_pos P) = 53 + Zpos n ->
  2 ^ 52 <= Zpos P / 2 ^ Zpos n < 2 ^ 53.
Proof.
  intros Hd. pose proof (digits2_pos_bounds P) as [Bl Bu]. rewrite Hd in Bl, Bu.
  assert (Hn : 0 < 2 ^ Zpos n) by (apply Z.pow_pos_nonneg; lia).
  replace (53 + Zpos n - 1) with (Zpos n + 52) in Bl by lia.
  replace (53 + Zpos n) with (Zpos n + 53) in Bu by lia.
  rewrite Z.pow_add_r in Bl, Bu by lia.
  split.
  - apply Z.div_le_lower_bound; assumption.
  - apply Z.div_lt_upper_bound; assumption.
Qed.

(** The rounding of a product of more than 53 bits, in the normal range:
    the result is an infinity, or a finite float whose exponent is the
    shifted one and whose mantissa is the quotient or its successor, or a
    finite float one exponent above with the mantissa [2^52]. *)
Lemma binary_round_aux_normal (s : bool) (P : positive) (E : Z) (n : positive) :
  Zpos (digits2_pos P) = 53 + Zpos n -> -1074 <= E + Zpos n ->
  let q := Zpos P / 2 ^ Zpos n in
  let r := binary_round_aux prec emax s (Zpos P) E loc_Exact in
  r = S754_infinity s
  \/ (exists m, r = S754_finite s m (E + Zpos n) /\ q <= Zpos m <= q + 1)
  \/ (r = S754_finite s (Z.to_pos (2 ^ 52)) (E + Zpos n + 1) /\ q = 2 ^ 53 - 1).
Proof.
  intros Hd HE q r. subst r. unfold binary_round_aux.
  rewrite (shr_fexp_shift P E n Hd HE).
  set (mrs := iter_pos shr_1 n _).
  assert (Hq : shr_m mrs = q) by (apply shr_m_iter_pos; simpl; lia).
  pose proof (div_pow2_bounds P n Hd) as Bq. fold q in Bq.
  pose proof (round_nearest_even_bounds (shr_m mrs) (loc_of_shr_record mrs)) as Br.
  set (rn := round_nearest_even _ _) in *. rewrite Hq in Br.
  change (IntDef.Z.add E (Zpos n)) with (E + Zpos n).
  destruct rn as [| rp | rp]; try lia.
  destruct (Z_lt_le_dec (Zpos rp) (2 ^ 53)) as [Hlt | Hge].
  - assert (Hdr : Zpos (digits2_pos rp) = 53) by (apply digits2_pos_unique; lia).
    rewrite (shr_fexp_noshift rp _ Hdr HE). simpl shr_m.
    destruct (Z.leb _ _); [right; left | left; reflexivity].
    exists rp. split; [reflexivity | lia].
  - assert (Hr : Zpos rp = 2 ^ 53) by lia.
    assert (Hq' : q = 2 ^ 53 - 1) by lia. clear Br.
    injection Hr as ->.
    assert (Hdr : Zpos (digits2_pos (Z.to_pos (2 ^ 53))) = 53 + Zpos 1) by reflexivity.
    change (Z.pow_pos 2 53) with (Z.to_pos (2 ^ 53)).
    rewrite (shr_fexp_shift _ _ 1 Hdr) by lia. simpl shr_m.
    destruct (Z.leb _ _); [right; right; split; [reflexivity | lia] | left; reflexivity].
Qed.

End Rounding.

Lemma SFeqb_finite_pos (m1 m2 : positive) (e1 e2 : Z) :
  SFeqb (S754_finite false m1 e1) (S754_finite false m2 e2) = true ->
  e1 = e2 /\ m1 = m2.
Proof.
  unfold SFeqb, SFcompare.
  change (IntDef.Z.compare e1 e2) with (Z.compare e1 e2).
  change (PosDef.Pos.compare_cont Eq m1 m2) with (Pos.compare m1 m2).
  destruct (Z.compare_spec e1 e2); try discriminate.
  destruct (Pos.compare_spec m1 m2); try discriminate. auto.
Qed.

(** A float strictly between 500 and infinity is a positive normal number. *)
Lemma acima_de_500_normal (x : float) :
  (500 <? x) = true -> (x <? infinity) = true ->
  exists m e, Prim2SF x = S754_finite false m e
              /\ Zpos (digits2_pos m) = 53%Z /\ (-44 <= e)%Z.
Proof.
  rewrite !ltb_spec. intros H500 Hinf. pose proof (Prim2SF_valid x) as Hv.
  replace (Prim2SF 500) with (S754_finite false 8796093022208000 (-44)) in H500
    by reflexivity.
  replace (Prim2SF infinity) with (S754_infinity false) in Hinf by reflexivity.
  destruct (Prim2SF x) as [s | s | | s m e].
  - discriminate H500.
  - destruct s; discriminate.
  - discriminate H500.
  - destruct s; [discriminate H500 |].
    exists m, e. split; [reflexivity |].
    unfold SFltb, SFcompare in H500.
    change (IntDef.Z.compare (-44) e) with (Z.compare (-44) e) in H500.
    assert (He : (-44 <= e)%Z).
    { destruct (Z.compare_spec (-44) e); lia. }
    split; [| exact He].
    unfold valid_binary, bounded, canonical_mantissa in Hv.
    apply andb_true_iff in Hv as [Hc _]. apply Z.eqb_eq in Hc.
    change (IntDef.Z.add ?a ?b) with (a + b)%Z in Hc.
    rewrite fexp_normal in Hc by lia. lia.
Qed.

(** The specification of [x * 0.90] for a positive normal [x] above 500 is
    never the specification of [x]: its exponent is lower, or its mantissa
    is. *)
Lemma SFmul_090_neq (m : positive) (e : Z) (r : spec_float) :
  Zpos (digits2_pos m) = 53%Z -> (-44 <= e)%Z ->
  r = SF64mul (S754_finite false m e) (Prim2SF 0.90) ->
  r = S754_infinity false
  \/ exists m' e', r = S754_finite false m' e' /\ (e' <> e \/ m' <> m).
Proof.
  intros Hd He ->.
  replace (Prim2SF 0.90) with (S754_finite false 8106479329266893 (-53)) by reflexivity.
  unfold SF64mul, SFmul. change (xorb false false) with false.
  change (IntDef.Z.add e (-53)) with (e + -53)%Z.
  pose proof (digits2_pos_bounds m) as Bm. rewrite Hd in Bm.
  change (2 ^ (53 - 1))%Z with 4503599627370496%Z in Bm.
  change (2 ^ 53)%Z with 9007199254740992%Z in Bm.
  set (P := (m * 8106479329266893)%positive).
  assert (HP : Zpos P = (Zpos m * 8106479329266893)%Z) by reflexivity.
  destruct (Z_lt_le_dec (Zpos P) (2 ^ 105)) as [Hlt | Hge].
  - (* 105 bits: the exponent drops *)
    assert (HdP : Zpos (digits2_pos P) = (53 + Zpos 52)%Z).
    { apply digits2_pos_unique.
      change (2 ^ (53 + 52 - 1))%Z with 20282409603651670423947251286016%Z.
      change (2 ^ 105)%Z with 40564819207303340847894502572032%Z in *. 
      change (2 ^ (53 + 52))%Z with 40564819207303340847894502572032%Z. lia. }
    destruct (binary_round_aux_normal false P (e + -53) 52 HdP ltac:(lia))
      as [H | [(m' & H & Hm') | [H Hq]]]; cbv zeta in *.
    + left. exact H.
    + right. exists m', (e + -53 + 52)%Z. split; [exact H | left; lia].
    + right. exists (Z.to_pos (2 ^ 52)), (e + -53 + 52 + 1)%Z. split; [exact H |].
      right. intros <-.
      change (Z.pos (Z.to_pos (2 ^ 52))) with 4503599627370496%Z in HP.
      rewrite HP in Hq. vm_compute in Hq. discriminate Hq.
  - (* 106 bits: the exponent stays, the mantissa drops *)
    assert (HdP : Zpos (digits2_pos P) = (53 + Zpos 53)%Z).
    { apply digits2_pos_unique.
      change (2 ^ (53 + 53 - 1))%Z with 40564819207303340847894502572032%Z.
      change (2 ^ 105)%Z with 40564819207303340847894502572032%Z in *. 
      change (2 ^ (53 + 53))%Z with 81129638414606681695789005144064%Z. lia. }
    destruct (binary_round_aux_normal false P (e + -53) 53 HdP ltac:(lia))
      as [H | [(m' & H & Hm') | [H Hq]]]; cbv zeta in *.
    + left. exact H.
    + right. exists m', (e + -53 + 53)%Z. split; [exact H | right].
      intros ->.
      assert (Zpos P / 2 ^ 53 < Zpos m - 1)%Z; [| lia].
      apply Z.div_lt_upper_bound; [reflexivity |].
      change (2 ^ 53)%Z with 9007199254740992%Z. lia.
    + right. exists (Z.to_pos (2 ^ 52)), (e + -53 + 53 + 1)%Z. split; [exact H |].
      left. lia.
Qed.

(** Ten percent off a finite amount above 500 is another amount, for
    Python's [!=] as well as for equality of floats. *)
Lemma mul_090_neq (x : float) :
  (500 <? x) = true -> (x <? infinity) = true ->
  (x * 0.90 =? x) = false /\ x * 0.90 <> x.
Proof.
  intros H500 Hinf.
  destruct (acima_de_500_normal x H500 Hinf) as (m & e & Hx & Hd & He).
  destruct (SFmul_090_neq m e (Prim2SF (x * 0.90)) Hd He) as [H | (m' & e' & H & Hne)].
  { rewrite mul_spec, Hx. reflexivity. }
  - split.
    + rewrite eqb_spec, H, Hx. reflexivity.
    + intros E. rewrite E, Hx in H. discriminate H.
  - split.
    + rewrite eqb_spec, H, Hx.
      destruct (SFeqb (S754_finite false m' e') (S754_finite false m e)) eqn:E;
        [| reflexivity].
      apply SFeqb_finite_pos in E as [-> ->]. destruct Hne; congruence.
    + intros E. rewrite E, Hx in H. injection H as -> ->. destruct Hne; congruence.
Qed.

(** [x <= y] excludes [y < x]. *)
Lemma leb_true_ltb_false (x y : float) : (x <=? y) = true -> (y <? x) = false.
Proof.
  rewrite leb_spec, ltb_spec. unfold SFleb, SFltb.
  destruct (Prim2SF x) as [[] | [] | | [] m1 e1], (Prim2SF y) as [[] | [] | | [] m2 e2];
    simpl; try reflexivity; try discriminate.
  - change (IntDef.Z.compare ?a ?b) with (Z.compare a b).
    change (PosDef.Pos.compare_cont Eq ?a ?b) with (Pos.compare a b).
    rewrite (Z.compare_antisym e1 e2), (Pos.compare_antisym m1 m2).
    destruct (e1 ?= e2)%Z; simpl; try reflexivity; try discriminate.
    destruct (m1 ?= m2)%positive; simpl; try reflexivity; discriminate.
  - change (IntDef.Z.compare ?a ?b) with (Z.compare a b).
    change (PosDef.Pos.compare_cont Eq ?a ?b) with (Pos.compare a b).
    rewrite (Z.compare_antisym e1 e2), (Pos.compare_antisym m1 m2).
    destruct (e1 ?= e2)%Z; simpl; try reflexivity; try discriminate.
    destruct (m1 ?= m2)%positive; simpl; try reflexivity; discriminate.
Qed.

(** ** The order of the decorators *)

(** C3, as the code has it.  For every base component of value [v] and
    every fee with [v <= 500], [v + taxa > 500] and [v + taxa] finite, the
    discount wrapped around the fee gives [(v + taxa) * 0.90], the fee
    wrapped around the discount gives [v + taxa], and the two values
    differ, for Python's [!=] as for equality of floats. *)
Theorem ordem_dos_decoradores_muda_valor (base : ComponentePedido) (taxa : float) :
  let v := result (calcular_valor base) in
  let desconto_por_fora :=
    result (calcular_valor (DescontoPedidoGrande (TaxaEmbalagemPresente base taxa))) in
  let taxa_por_fora :=
    result (calcular_valor (TaxaEmbalagemPresente (DescontoPedidoGrande base) taxa)) in
  (v <=? 500) = true ->
  (500 <? v + taxa) = true ->
  (v + taxa <? infinity) = true ->
  desconto_por_fora = (v + taxa) * 0.90
  /\ taxa_por_fora = v + taxa
  /\ (desconto_por_fora =? taxa_por_fora) = false
  /\ desconto_por_fora <> taxa_por_fora.
Proof.
  cbv zeta. intros Hle Hgt Hfin.
  rewrite calcular_valor_DescontoPedidoGrande, !calcular_valor_TaxaEmbalagemPresente,
    calcular_valor_DescontoPedidoGrande.
  cbv zeta. rewrite Hgt, (leb_true_ltb_false _ _ Hle).
  destruct (mul_090_neq _ Hgt Hfin) as [Hneq Hdiff].
  repeat split; assumption.
Qed.

(** A base order of 498 and the default fee of 5: 452.7 one way, 503 the
    other. *)
Lemma ordem_dos_decoradores_muda_valor_witness :
  result (calcular_valor
            (DescontoPedidoGrande (TaxaEmbalagemPresente (base_de 498) 5.00)))
    = (498 + 5.00) * 0.90
  /\ result (calcular_valor
               (TaxaEmbalagemPresente (DescontoPedidoGrande (base_de 498)) 5.00))
       = 498 + 5.00
  /\ (result (calcular_valor
                (DescontoPedidoGrande (TaxaEmbalagemPresente (base_de 498) 5.00)))
      =? result (calcular_valor
                   (TaxaEmbalagemPresente (DescontoPedidoGrande (base_de 498)) 5.00)))
     = false
  /\ result (calcular_valor
               (DescontoPedidoGrande (TaxaEmbalagemPresente (base_de 498) 5.00)))
     <> result (calcular_valor
                  (TaxaEmbalagemPresente (DescontoPedidoGrande (base_de 498)) 5.00)).
Proof.
  exact (ordem_dos_decoradores_muda_valor (base_de 498) 5.00 eq_refl eq_refl eq_refl).
Defined.

(** C3 as stated fails when the fee is infinite: on the empty base order,
    of value 0, a fee of [+infinity] crosses the threshold, and both orders
    of the decorators give [+infinity]. *)
Lemma ordem_dos_decoradores_counterexample :
  (result (calcular_valor pedido_vazio) <=? 500) = true
  /\ (500 <? result (calcular_valor pedido_vazio) + infinity) = true
  /\ result (calcular_valor
               (DescontoPedidoGrande (TaxaEmbalagemPresente pedido_vazio infinity)))
     = result (calcular_valor
                 (TaxaEmbalagemPresente (DescontoPedidoGrande pedido_vazio) infinity))
  /\ (result (calcular_valor
                (DescontoPedidoGrande (TaxaEmbalagemPresente pedido_vazio infinity)))
      =? result (calcular_valor
                   (TaxaEmbalagemPresente (DescontoPedidoGrande pedido_vazio) infinity)))
     = true.
Proof. repeat split. Qed.

(** * Further properties of the code *)

(** ** The decorator chain *)

(** X1. [DecoradorPedido] layers change nothing wherever they sit in a
    chain: the chain without them computes the same value and the same
    description, and prints the same lines. *)
Theorem sem_decorador_transparente (c : ComponentePedido) :
  calcular_valor (sem_decorador c) = calcular_valor c
  /\ get_descricao (sem_decorador c) = get_descricao c.
Proof.
  induction c as [itens vb | c [IHv IHd] | c [IHv IHd] | c [IHv IHd] taxa]; simpl.
  - split; reflexivity.
  - split; assumption.
  - rewrite IHv, IHd. split; reflexivity.
  - rewrite IHv, IHd. split; reflexivity.
Qed.

Lemma append_assoc (a b c : string) : ((a ++ b) ++ c = a ++ (b ++ c))%string.
Proof. induction a as [| x a IH]; simpl; [reflexivity | now rewrite IH]. Qed.

(** X2. The description of a chain starts with the description of the base
    order at its root, which counts the items of that order; the
    decorators only append to it. *)
Theorem descricao_comeca_pela_base (c : ComponentePedido) :
  exists sufixo,
    result (get_descricao c) =
      ("Pedido com " ++ str_len (itens_da_raiz c) ++ " itens" ++ sufixo)%string.
Proof.
  induction c as [itens vb | c [s IH] | c [s IH] | c [s IH] taxa].
  - exists ""%string. reflexivity.
  - exists s. exact IH.
  - rewrite get_descricao_DescontoPedidoGrande. simpl itens_da_raiz.
    destruct (500 <? result (calcular_valor c)).
    + exists (s ++ nota_desconto)%string. rewrite IH.
      rewrite !append_assoc. reflexivity.
    + exists s. exact IH.
  - rewrite get_descricao_TaxaEmbalagemPresente. simpl itens_da_raiz.
    exists (s ++ nota_embalagem taxa)%string. rewrite IH.
    rewrite !append_assoc. reflexivity.
Qed.

Lemma output_get_descricao_DescontoPedidoGrande (x : ComponentePedido) :
  output (get_descricao (DescontoPedidoGrande x)) =
    (output (calcular_valor x) ++ output (get_descricao x))%list.
Proof.
  simpl. autorewrite with console. f_equal.
  destruct (500 <? result (calcular_valor x)); autorewrite with console;
    [apply app_nil_r | reflexivity].
Qed.

(** X3. Asking for the description of a chain that has no
    [DescontoPedidoGrande] layer prints nothing. *)
Theorem descricao_silenciosa_sem_desconto (c : ComponentePedido) :
  tem_desconto c = false -> output (get_descricao c) = [].
Proof.
  induction c as [itens vb | c IH | c IH | c IH taxa]; simpl; intros H.
  - reflexivity.
  - exact (IH H).
  - discriminate H.
  - autorewrite with console. rewrite (IH H). reflexivity.
Qed.

(** The component of the third demonstration order, a fee over a base. *)
Lemma descricao_silenciosa_sem_desconto_witness :
  output (get_descricao (componente_pedido pedido3)) = [].
Proof.
  apply (descricao_silenciosa_sem_desconto (componente_pedido pedido3)).
  reflexivity.
Defined.

(** X4. Asking for the description of a [DescontoPedidoGrande] layer is
    not silent: it prints what computing the inner value prints, then what
    the inner description prints; over a [TaxaEmbalagemPresente] the fee
    line comes out although no value was asked for. *)
Theorem descricao_do_desconto_imprime (x : ComponentePedido) (taxa : float) :
  output (get_descricao (DescontoPedidoGrande x)) =
    (output (calcular_valor x) ++ output (get_descricao x))%list
  /\ In ("Adicionando R$" ++ format_f 2 taxa ++ " de Embalagem de Presente.")%string
       (output (get_descricao (DescontoPedidoGrande (TaxaEmbalagemPresente x taxa)))).
Proof.
  split; [apply output_get_descricao_DescontoPedidoGrande |].
  rewrite output_get_descricao_DescontoPedidoGrande. simpl calcular_valor.
  autorewrite with console. rewrite !in_app_iff. simpl. auto.
Qed.

(** ** The [Pedido] context *)

Lemma result_valor_com_desconto (p : Pedido) :
  result (calcular_valor_com_desconto_pagamento p) =
    match estrategia_pagamento p with
    | PagamentoPix => result (calcular_valor (componente_pedido p)) * 0.95
    | _ => result (calcular_valor (componente_pedido p))
    end.
Proof.
  unfold calcular_valor_com_desconto_pagamento. autorewrite with console.
  destruct (estrategia_pagamento p); reflexivity.
Qed.

(** X5. The payment discount: a PIX order pays the component value times
    0.95 (the float [1 - 0.05]) and prints the 5% line after the lines of
    the component; a credit or mana order pays the component value as it
    is and prints the lines of the component only. *)
Theorem desconto_do_pagamento (p : Pedido) :
  let c := componente_pedido p in
  let v := result (calcular_valor c) in
  calcular_valor_com_desconto_pagamento p =
    match estrategia_pagamento p with
    | PagamentoPix => (v * 0.95, (output (calcular_valor c) ++ [linha_desconto_pix])%list)
    | _ => (v, output (calcular_valor c))
    end.
Proof.
  cbv zeta. unfold calcular_valor_com_desconto_pagamento.
  destruct (calcular_valor (componente_pedido p)) as [v o].
  destruct (estrategia_pagamento p); simpl; unfold result, output; simpl;
    rewrite ?app_nil_r; reflexivity.
Qed.

(** X6. The lines that pricing prints: [calcular_valor_final] prints the
    lines of the payment-discounted value twice, once for the value and
    once inside the shipping cost, then the one line of the shipping
    strategy; [processar_pagamento] prints all of that again before the
    lines of the payment. *)
Theorem rastro_do_valor_final (p : Pedido) :
  let desconto := calcular_valor_com_desconto_pagamento p in
  let frete := calcular (estrategia_frete p) (result desconto) in
  output (calcular_valor_final p) = (output desconto ++ output desconto ++ output frete)%list
  /\ List.length (output frete) = 1%nat
  /\ output (processar_pagamento p) =
       (output (calcular_valor_final p)
          ++ output (processar (estrategia_pagamento p) (result (calcular_valor_final p))))%list.
Proof.
  cbv zeta. split; [| split].
  - unfold calcular_valor_final, calcular_frete. autorewrite with console.
    now rewrite app_nil_r.
  - destruct (estrategia_frete p); reflexivity.
  - unfold processar_pagamento. autorewrite with console. reflexivity.
Qed.

Lemma output_processar_pagamento (p : Pedido) :
  output (processar_pagamento p) =
    (output (calcular_valor_final p)
       ++ output (processar (estrategia_pagamento p) (result (calcular_valor_final p))))%list.
Proof. unfold processar_pagamento. autorewrite with console. reflexivity. Qed.

Lemma output_desfecho (f : CheckoutFacade) (p : Pedido) (valor_final : float) (b : bool) :
  output (if b
          then print linha_sucesso ;;;
               registrar_pedido (sistema_estoque f) p ;;;
               emitir_nota (gerador_nota f) p valor_final ;;;
               ret true
          else print linha_falha ;;; ret false) =
    if b
    then (linha_sucesso ::
            output (registrar_pedido (sistema_estoque f) p) ++
            output (emitir_nota (gerador_nota f) p valor_final))%list
    else [linha_falha].
Proof.
  destruct b; autorewrite with console; [| reflexivity].
  rewrite app_nil_r. reflexivity.
Qed.

(** ** The facade *)

(** X7. What a checkout prints, in order: the two header lines, the lines
    and the text of the description, the pricing lines, the amount to pay,
    the pricing lines a second time (the payment prices the order again),
    the lines of the payment, and then either the success line with the
    lines of the two subsystems or the failure line alone. *)
Theorem transcricao_do_checkout (f : CheckoutFacade) (p : Pedido) :
  let valor_final := result (calcular_valor_final p) in
  let precos := output (calcular_valor_final p) in
  let pagamento := processar (estrategia_pagamento p) valor_final in
  output (concluir_transacao f p) =
    (["========================================="%string;
      "INICIANDO CHECKOUT COM DESIGN PATTERNS..."%string]
       ++ output (Pedido_get_descricao p)
       ++ [(nl ++ "Descrição: " ++ result (Pedido_get_descricao p))%string]
       ++ precos
       ++ [(nl ++ "Valor a Pagar: R$" ++ format_f 2 valor_final)%string]
       ++ precos
       ++ output pagamento
       ++ (if result pagamento
           then linha_sucesso ::
                  output (registrar_pedido (sistema_estoque f) p) ++
                  output (emitir_nota (gerador_nota f) p valor_final)
           else [linha_falha]))%list.
Proof.
  cbv zeta. unfold concluir_transacao. autorewrite with console.
  rewrite output_desfecho, output_processar_pagamento, result_processar_pagamento.
  rewrite <- !app_assoc. reflexivity.
Qed.

(** X8. The amount shown before the payment, the amount the payment
    strategy is asked for and, when the checkout succeeds, the amount on
    the invoice are one and the same text: the final value computed first,
    with two decimals. *)
Theorem mesmo_valor_exibido_cobrado_faturado (f : CheckoutFacade) (p : Pedido) :
  let valor_final := format_f 2 (result (calcular_valor_final p)) in
  let saida := output (concluir_transacao f p) in
  In (nl ++ "Valor a Pagar: R$" ++ valor_final)%string saida
  /\ (exists meio, In ("Processando R$" ++ valor_final ++ meio)%string saida)
  /\ (result (concluir_transacao f p) = true ->
      In ("   Valor Total: R$" ++ valor_final)%string saida).
Proof.
  cbv zeta. rewrite result_concluir_transacao, result_processar_pagamento.
  unfold concluir_transacao. autorewrite with console.
  rewrite output_desfecho, output_processar_pagamento, result_processar_pagamento.
  split; [| split].
  - rewrite !in_app_iff. do 5 right. left. simpl. left. reflexivity.
  - destruct (estrategia_pagamento p) as [| limite |].
    + exists " via PIX..."%string. rewrite !in_app_iff. do 6 right. left. right.
      simpl. left. reflexivity.
    + exists " via Cartão de Crédito..."%string. rewrite !in_app_iff. do 6 right. left. right.
      simpl processar. destruct (_ <? limite); simpl; left; reflexivity.
    + exists " via Transferência de Mana..."%string.
      rewrite !in_app_iff. do 6 right. left. right.
      simpl. left. reflexivity.
  - intros ->. rewrite !in_app_iff. do 7 right. right.
    rewrite in_app_iff. right. unfold emitir_nota. autorewrite with console.
    simpl. right. left. reflexivity.
Qed.

Lemma chamadas_concluir_transacao (f : CheckoutFacade) (p : Pedido) :
  let saida := output (concluir_transacao f p) in
  chamadas_estoque saida = (if result (processar_pagamento p) then 1 else 0)%nat
  /\ chamadas_nota saida = (if result (processar_pagamento p) then 1 else 0)%nat.
Proof.
  cbv zeta.
  destruct (output_concluir_transacao f p) as (antes & Hq & ->).
  destruct (quieto_chamadas _ Hq) as [He Hn].
  destruct (chamadas_registrar_pedido (sistema_estoque f) p) as [Re Rn].
  destruct (chamadas_emitir_nota (gerador_nota f) p (result (calcular_valor_final p)))
    as [Ee En].
  destruct (quieto_chamadas [linha_sucesso] eq_refl) as [Se Sn].
  destruct (quieto_chamadas [linha_falha] eq_refl) as [Fe Fn].
  unfold chamadas_estoque, chamadas_nota in *.
  destruct (result (processar_pagamento p)).
  - change (linha_sucesso :: ?l)%list with ([linha_sucesso] ++ l)%list.
    rewrite !count_occ_app, He, Hn, Re, Rn, Ee, En, Se, Sn. split; reflexivity.
  - rewrite !count_occ_app, He, Hn, Fe, Fn. split; reflexivity.
Qed.

(** X9. An order paid by PIX or by mana always completes, whatever its
    component and shipping (and whatever its amount, not a number
    included): the facade returns [True] and each subsystem is called
    once. *)
Theorem pix_e_mana_sempre_concluem (f : CheckoutFacade) (p : Pedido) :
  estrategia_pagamento p = PagamentoPix \/ estrategia_pagamento p = PagamentoMana ->
  result (concluir_transacao f p) = true
  /\ chamadas_estoque (output (concluir_transacao f p)) = 1%nat
  /\ chamadas_nota (output (concluir_transacao f p)) = 1%nat.
Proof.
  intros H.
  assert (Hok : result (processar_pagamento p) = true).
  { rewrite result_processar_pagamento. destruct H as [-> | ->]; reflexivity. }
  destruct (chamadas_concluir_transacao f p) as [He Hn].
  rewrite result_concluir_transacao, He, Hn, Hok. repeat split.
Qed.

(** The first and the third demonstration orders. *)
Lemma pix_e_mana_sempre_concluem_witness :
  (result (concluir_transacao CheckoutFacade_init pedido1) = true
   /\ chamadas_estoque (output (concluir_transacao CheckoutFacade_init pedido1)) = 1%nat
   /\ chamadas_nota (output (concluir_transacao CheckoutFacade_init pedido1)) = 1%nat)
  /\ (result (concluir_transacao CheckoutFacade_init pedido3) = true
      /\ chamadas_estoque (output (concluir_transacao CheckoutFacade_init pedido3)) = 1%nat
      /\ chamadas_nota (output (concluir_transacao CheckoutFacade_init pedido3)) = 1%nat).
Proof.
  split.
  - apply (pix_e_mana_sempre_concluem CheckoutFacade_init pedido1). left. reflexivity.
  - apply (pix_e_mana_sempre_concluem CheckoutFacade_init pedido3). right. reflexivity.
Defined.

(** ** Amounts that are not finite numbers *)

Lemma ltb_nan_l (x : float) : (nan <? x) = false.
Proof. rewrite ltb_spec. reflexivity. Qed.

Lemma ltb_nan_r (x : float) : (x <? nan) = false.
Proof.
  rewrite ltb_spec. change (Prim2SF nan) with S754_nan.
  destruct (Prim2SF x) as [[] | [] | | [] m e]; reflexivity.
Qed.

Lemma ltb_infinity_l (x : float) : (infinity <? x) = false.
Proof.
  rewrite ltb_spec. change (Prim2SF infinity) with (S754_infinity false).
  destruct (Prim2SF x) as [[] | [] | | [] m e]; reflexivity.
Qed.

Lemma ltb_neg_infinity_r (x : float) : (x <? neg_infinity) = false.
Proof.
  rewrite ltb_spec. change (Prim2SF neg_infinity) with (S754_infinity true).
  destruct (Prim2SF x) as [[] | [] | | [] m e]; reflexivity.
Qed.

(** X10. Credit never approves an amount that is not a number or is
    [+infinity], whatever the limit, and a card whose limit is not a
    number or is [-infinity] approves nothing. *)
Theorem credito_rejeita_nan_e_infinito (limite valor : float) :
  result (processar (PagamentoCredito limite) nan) = false
  /\ result (processar (PagamentoCredito limite) infinity) = false
  /\ result (processar (PagamentoCredito nan) valor) = false
  /\ result (processar (PagamentoCredito neg_infinity) valor) = false.
Proof.
  rewrite !result_processar_credito.
  repeat split;
    [apply ltb_nan_l | apply ltb_infinity_l | apply ltb_nan_r | apply ltb_neg_infinity_r].
Qed.

(** X11. An order paid by credit has no payment discount: its final value
    is the component value plus the shipping cost of that value, the
    facade returns whether this total is strictly below the limit, and
    each subsystem is called once if it is and not at all otherwise. *)
Theorem checkout_no_credito (f : CheckoutFacade) (p : Pedido) (limite : float) :
  estrategia_pagamento p = PagamentoCredito limite ->
  let v := result (calcular_valor (componente_pedido p)) in
  let total := v + result (calcular (estrategia_frete p) v) in
  result (calcular_valor_final p) = total
  /\ result (concluir_transacao f p) = (total <? limite)
  /\ chamadas_estoque (output (concluir_transacao f p)) = (if total <? limite then 1%nat else 0%nat)
  /\ chamadas_nota (output (concluir_transacao f p)) = (if total <? limite then 1%nat else 0%nat).
Proof.
  intros H. cbv zeta.
  assert (Hd : result (calcular_valor_com_desconto_pagamento p) =
               result (calcular_valor (componente_pedido p))).
  { rewrite result_valor_com_desconto, H. reflexivity. }
  assert (Ht : result (calcular_valor_final p) =
               result (calcular_valor (componente_pedido p))
               + result (calcular (estrategia_frete p)
                           (result (calcular_valor (componente_pedido p))))).
  { rewrite result_calcular_valor_final, result_calcular_frete, Hd. reflexivity. }
  assert (Hok : result (processar_pagamento p) =
                (result (calcular_valor_final p) <? limite)).
  { rewrite result_processar_pagamento, H. apply result_processar_credito. }
  destruct (chamadas_concluir_transacao f p) as [He Hn].
  rewrite result_concluir_transacao, He, Hn, Hok, Ht. repeat split.
Qed.

(** The second demonstration order, on the default limit. *)
Lemma checkout_no_credito_witness :
  result (calcular_valor_final pedido2) = 545 + (545 * 0.10 + 15.00)
  /\ result (concluir_transacao CheckoutFacade_init pedido2) = true
  /\ chamadas_estoque (output (concluir_transacao CheckoutFacade_init pedido2)) = 1%nat
  /\ chamadas_nota (output (concluir_transacao CheckoutFacade_init pedido2)) = 1%nat.
Proof.
  exact (checkout_no_credito CheckoutFacade_init pedido2 1000.0 eq_refl).
Defined.

(** ** The base order *)

Lemma add_nan_l (x : float) : nan + x = nan.
Proof. apply Prim2SF_inj. rewrite add_spec. reflexivity. Qed.

Lemma add_nan_r (x : float) : x + nan = nan.
Proof.
  apply Prim2SF_inj. rewrite add_spec. change (Prim2SF nan) with S754_nan.
  destruct (Prim2SF x) as [[] | [] | | [] m e]; reflexivity.
Qed.


Lemma fold_nan (itens : list Item) :
  fold_left (fun acc item => acc + valor item) itens nan = nan.
Proof.
  induction itens as [| i l IH]; simpl; [reflexivity |].
  rewrite add_nan_l. exact IH.
Qed.

(** X13. One item whose value is not a number makes the value of the whole
    base order not a number, wherever the item stands in the list. *)
Theorem soma_valores_nan (itens : list Item) (item : Item) :
  In item itens -> valor item = nan -> soma_valores itens = nan.
Proof.
  intros Hin Hnan. apply in_split in Hin as (l1 & l2 & ->).
  unfold soma_valores. rewrite fold_left_app. simpl.
  rewrite Hnan, add_nan_r. apply fold_nan.
Qed.

(** The base order of [pedido_nan], whose second item is not a number. *)
Lemma soma_valores_nan_witness :
  soma_valores [ {| nome := "a"; valor := 600.0 |};
                 {| nome := "b"; valor := nan |};
                 {| nome := "c"; valor := 80.0 |} ] = nan.
Proof.
  apply (soma_valores_nan _ {| nome := "b"; valor := nan |}).
  - right. left. reflexivity.
  - reflexivity.
Defined.

Lemma calcular_valor_nan (c : ComponentePedido) :
  valor_da_raiz c = nan ->
  result (calcular_valor c) = nan
  /\ ~ In linha_desconto_grande (output (calcular_valor c)).
Proof.
  induction c as [itens vb | c IH | c IH | c IH taxa]; simpl valor_da_raiz; intros H.
  - split; [exact H | intros Hf; exact Hf].
  - exact (IH H).
  - destruct (IH H) as [Hv Ho].
    rewrite calcular_valor_DescontoPedidoGrande_full. cbv zeta.
    rewrite Hv, ltb_spec. simpl. split; [reflexivity | exact Ho].
  - destruct (IH H) as [Hv Ho].
    rewrite calcular_valor_TaxaEmbalagemPresente, Hv, add_nan_l.
    split; [reflexivity |].
    simpl calcular_valor. autorewrite with console.
    rewrite !in_app_iff. simpl. intros [Hi | [Hi | Hi]];
      [exact (Ho Hi) | discriminate Hi | exact Hi].
Qed.

(** X14. When the base order at the root of a chain has a value that is
    not a number, so has the chain, whatever its decorators, no discount
    layer applies its discount, the final value of the order is not a
    number either, and a checkout by credit is refused whatever the
    limit. *)
Theorem nan_contamina_o_pedido (f : CheckoutFacade) (p : Pedido) :
  valor_da_raiz (componente_pedido p) = nan ->
  result (calcular_valor (componente_pedido p)) = nan
  /\ ~ In linha_desconto_grande (output (calcular_valor (componente_pedido p)))
  /\ result (calcular_valor_final p) = nan
  /\ (forall limite, estrategia_pagamento p = PagamentoCredito limite ->
      result (concluir_transacao f p) = false).
Proof.
  intros H. destruct (calcular_valor_nan _ H) as [Hv Ho].
  assert (Hd : result (calcular_valor_com_desconto_pagamento p) = nan).
  { rewrite result_valor_com_desconto, Hv.
    destruct (estrategia_pagamento p); reflexivity. }
  assert (Hf : result (calcular_valor_final p) = nan).
  { rewrite result_calcular_valor_final, Hd. apply add_nan_l. }
  repeat split; try assumption.
  intros limite Hc.
  rewrite result_concluir_transacao, result_processar_pagamento, Hc, Hf.
  rewrite result_processar_credito, ltb_spec. reflexivity.
Qed.

(** [pedido_nan]: 600, not a number and 80, under a discount and a fee. *)
Lemma nan_contamina_o_pedido_witness :
  result (calcular_valor (componente_pedido pedido_nan)) = nan
  /\ ~ In linha_desconto_grande (output (calcular_valor (componente_pedido pedido_nan)))
  /\ result (calcular_valor_final pedido_nan) = nan
  /\ (forall limite, estrategia_pagamento pedido_nan = PagamentoCredito limite ->
      result (concluir_transacao CheckoutFacade_init pedido_nan) = false).
Proof. exact (nan_contamina_o_pedido CheckoutFacade_init pedido_nan eq_refl). Defined.

(** ** The discount lowers the value *)

Section RoundingCases.
Local Open Scope Z_scope.

(** The same rounding when the shifted exponent is in range: the result is
    finite with that exponent and the quotient or its successor as
    mantissa, unless the quotient is [2^53 - 1] and rounds up to [2^53]. *)
Lemma binary_round_aux_normal_cases (s : bool) (P : positive) (E : Z) (n : positive) :
  Zpos (digits2_pos P) = 53 + Zpos n -> -1074 <= E + Zpos n -> E + Zpos n <= 971 ->
  let q := Zpos P / 2 ^ Zpos n in
  let r := binary_round_aux prec emax s (Zpos P) E loc_Exact in
  (exists m, r = S754_finite s m (E + Zpos n) /\ q <= Zpos m <= q + 1)
  \/ (q = 2 ^ 53 - 1 /\
      r = if E + Zpos n + 1 <=? 971
          then S754_finite s (Z.to_pos (2 ^ 52)) (E + Zpos n + 1)
          else S754_infinity s).
Proof.
  intros Hd HE HE' q r. subst r. unfold binary_round_aux.
  rewrite (shr_fexp_shift P E n Hd HE).
  set (mrs := iter_pos shr_1 n _).
  assert (Hq : shr_m mrs = q) by (apply shr_m_iter_pos; simpl; lia).
  pose proof (div_pow2_bounds P n Hd) as Bq. fold q in Bq.
  pose proof (round_nearest_even_bounds (shr_m mrs) (loc_of_shr_record mrs)) as Br.
  set (rn := round_nearest_even _ _) in *. rewrite Hq in Br.
  change (IntDef.Z.add E (Zpos n)) with (E + Zpos n).
  destruct rn as [| rp | rp]; try lia.
  destruct (Z_lt_le_dec (Zpos rp) (2 ^ 53)) as [Hlt | Hge].
  - assert (Hdr : Zpos (digits2_pos rp) = 53) by (apply digits2_pos_unique; lia).
    rewrite (shr_fexp_noshift rp _ Hdr HE). simpl shr_m.
    change (IntDef.Z.sub emax prec) with 971.
    change (IntDef.Z.leb ?a ?b) with (a <=? b).
    replace (E + Zpos n <=? 971) with true by (symmetry; apply Z.leb_le; exact HE').
    left. exists rp. split; [reflexivity | lia].
  - assert (Hr : Zpos rp = 2 ^ 53) by lia.
    assert (Hq' : q = 2 ^ 53 - 1) by lia. clear Br.
    injection Hr as ->.
    assert (Hdr : Zpos (digits2_pos (Z.to_pos (2 ^ 53))) = 53 + Zpos 1) by reflexivity.
    change (Z.pow_pos 2 53) with (Z.to_pos (2 ^ 53)).
    rewrite (shr_fexp_shift _ _ 1 Hdr) by lia. simpl shr_m.
    right. split; [exact Hq' |]. reflexivity.
Qed.

End RoundingCases.

Lemma SFltb_finite_pos (m1 m2 : positive) (e1 e2 : Z) :
  (e1 < e2 \/ (e1 = e2 /\ Zpos m1 < Zpos m2))%Z ->
  SFltb (S754_finite false m1 e1) (S754_finite false m2 e2) = true.
Proof.
  unfold SFltb, SFcompare.
  change (IntDef.Z.compare e1 e2) with (Z.compare e1 e2).
  change (PosDef.Pos.compare_cont Eq m1 m2) with (Pos.compare m1 m2).
  intros [H | [-> H]].
  - apply Z.compare_lt_iff in H. rewrite H. reflexivity.
  - rewrite Z.compare_refl.
    assert (Hm : (m1 ?= m2)%positive = Lt) by (apply Pos.compare_lt_iff; lia).
    rewrite Hm. reflexivity.
Qed.

(** A positive normal [x] above 500 times 0.90 is a finite float below
    [x]: its exponent is lower, or the same with a lower mantissa. *)
Lemma SFmul_090_lt (m : positive) (e : Z) :
  Zpos (digits2_pos m) = 53%Z -> (-44 <= e <= 971)%Z ->
  exists m' e',
    SF64mul (S754_finite false m e) (Prim2SF 0.90) = S754_finite false m' e'
    /\ (e' < e \/ (e' = e /\ Zpos m' < Zpos m))%Z.
Proof.
  intros Hd He.
  replace (Prim2SF 0.90) with (S754_finite false 8106479329266893 (-53)) by reflexivity.
  unfold SF64mul, SFmul. change (xorb false false) with false.
  change (IntDef.Z.add e (-53)) with (e + -53)%Z.
  pose proof (digits2_pos_bounds m) as Bm. rewrite Hd in Bm.
  change (2 ^ (53 - 1))%Z with 4503599627370496%Z in Bm.
  change (2 ^ 53)%Z with 9007199254740992%Z in Bm.
  set (P := (m * 8106479329266893)%positive).
  assert (HP : Zpos P = (Zpos m * 8106479329266893)%Z) by reflexivity.
  destruct (Z_lt_le_dec (Zpos P) (2 ^ 105)) as [Hlt | Hge].
  - assert (HdP : Zpos (digits2_pos P) = (53 + Zpos 52)%Z).
    { apply digits2_pos_unique.
      change (2 ^ (53 + 52 - 1))%Z with 20282409603651670423947251286016%Z.
      change (2 ^ 105)%Z with 40564819207303340847894502572032%Z in *.
      change (2 ^ (53 + 52))%Z with 40564819207303340847894502572032%Z. lia. }
    destruct (binary_round_aux_normal_cases false P (e + -53) 52 HdP ltac:(lia) ltac:(lia))
      as [(m' & H & Hm') | [Hq H]]; cbv zeta in *.
    + exists m', (e + -53 + 52)%Z. split; [exact H | left; lia].
    + replace (e + -53 + 52 + 1 <=? 971)%Z with true in H
        by (symmetry; apply Z.leb_le; lia).
      exists (Z.to_pos (2 ^ 52)), (e + -53 + 52 + 1)%Z. split; [exact H |].
      right. split; [lia |].
      change (Z.pos (Z.to_pos (2 ^ 52))) with 4503599627370496%Z.
      pose proof (Z.mul_div_le (Zpos P) (2 ^ 52) ltac:(reflexivity)) as Hdiv.
      rewrite Hq in Hdiv.
      change (2 ^ 52 * (2 ^ 53 - 1))%Z with 40564819207303336344294875201536%Z in Hdiv.
      lia.
  - assert (HdP : Zpos (digits2_pos P) = (53 + Zpos 53)%Z).
    { apply digits2_pos_unique.
      change (2 ^ (53 + 53 - 1))%Z with 40564819207303340847894502572032%Z.
      change (2 ^ 105)%Z with 40564819207303340847894502572032%Z in *.
      change (2 ^ (53 + 53))%Z with 81129638414606681695789005144064%Z. lia. }
    destruct (binary_round_aux_normal_cases false P (e + -53) 53 HdP ltac:(lia) ltac:(lia))
      as [(m' & H & Hm') | [Hq H]]; cbv zeta in *.
    + exists m', (e + -53 + 53)%Z. split; [exact H | right].
      split; [lia |].
      assert (Zpos P / 2 ^ 53 < Zpos m - 1)%Z; [| lia].
      apply Z.div_lt_upper_bound; [reflexivity |].
      change (2 ^ 53)%Z with 9007199254740992%Z. lia.
    + exfalso.
      pose proof (Z.mul_div_le (Zpos P) (2 ^ 53) ltac:(reflexivity)) as Hdiv.
      rewrite Hq in Hdiv.
      change (2 ^ 53 * (2 ^ 53 - 1))%Z with 81129638414606672688589750403072%Z in Hdiv.
      lia.
Qed.

Lemma mul_090_lt (x : float) :
  (500 <? x) = true -> (x <? infinity) = true -> (x * 0.90 <? x) = true.
Proof.
  intros H500 Hinf.
  destruct (acima_de_500_normal x H500 Hinf) as (m & e & Hx & Hd & He).
  assert (He' : (e <= 971)%Z).
  { pose proof (Prim2SF_valid x) as Hv. rewrite Hx in Hv.
    unfold valid_binary, bounded in Hv. apply andb_true_iff in Hv as [_ Hv].
    apply Z.leb_le in Hv. exact Hv. }
  destruct (SFmul_090_lt m e Hd (conj He He')) as (m' & e' & H & Hlt).
  rewrite ltb_spec, mul_spec, Hx, H. apply SFltb_finite_pos. exact Hlt.
Qed.

Lemma ltb_true_leb_true (x y : float) : (x <? y) = true -> (x <=? y) = true.
Proof.
  rewrite ltb_spec, leb_spec. unfold SFltb, SFleb.
  destruct (SFcompare (Prim2SF x) (Prim2SF y)) as [[ | | ] |]; congruence.
Qed.

Lemma eqb_true_leb_true (x y : float) : (x =? y) = true -> (x <=? y) = true.
Proof.
  rewrite eqb_spec, leb_spec. unfold SFeqb, SFleb.
  destruct (SFcompare (Prim2SF x) (Prim2SF y)) as [[ | | ] |]; congruence.
Qed.

(** Above 500 and not below infinity is the positive infinity, which the
    discount leaves as it is. *)
Lemma mul_090_infinity (x : float) :
  (500 <? x) = true -> (x <? infinity) = false -> (x * 0.90 =? x) = true.
Proof.
  rewrite !ltb_spec, eqb_spec, mul_spec.
  replace (Prim2SF 500) with (S754_finite false 8796093022208000 (-44)) by reflexivity.
  replace (Prim2SF infinity) with (S754_infinity false) by reflexivity.
  replace (Prim2SF 0.90) with (S754_finite false 8106479329266893 (-53)) by reflexivity.
  destruct (Prim2SF x) as [[] | [] | | [] m e]; simpl; try discriminate; reflexivity.
Qed.

(** X15. The discount layer never raises a value: for every inner
    component whose value [v] is a number, the value of
    [DescontoPedidoGrande] is at most [v], and it is strictly below [v]
    when [v] is finite and above 500. *)
Theorem desconto_nunca_aumenta (x : ComponentePedido) :
  let v := result (calcular_valor x) in
  let v' := result (calcular_valor (DescontoPedidoGrande x)) in
  (v =? v) = true ->
  (v' <=? v) = true
  /\ ((500 <? v) = true -> (v <? infinity) = true -> (v' <? v) = true).
Proof.
  cbv zeta. intros Hnum. rewrite calcular_valor_DescontoPedidoGrande. cbv zeta.
  destruct (500 <? result (calcular_valor x)) eqn:H500.
  - destruct (result (calcular_valor x) <? infinity) eqn:Hinf.
    + pose proof (mul_090_lt _ H500 Hinf) as Hlt.
      split; [apply ltb_true_leb_true; exact Hlt | intros _ _; exact Hlt].
    + split; [| discriminate].
      apply eqb_true_leb_true, mul_090_infinity; assumption.
  - split; [apply eqb_true_leb_true; exact Hnum | discriminate].
Qed.

(** A base order of 600: 540 is below 600. *)
Lemma desconto_nunca_aumenta_witness :
  (result (calcular_valor (DescontoPedidoGrande (base_de 600)))
     <=? result (calcular_valor (base_de 600))) = true
  /\ (result (calcular_valor (DescontoPedidoGrande (base_de 600)))
        <? result (calcular_valor (base_de 600))) = true.
Proof.
  destruct (desconto_nunca_aumenta (base_de 600) eq_refl) as [H1 H2].
  split; [exact H1 | exact (H2 eq_refl eq_refl)].
Defined.
